(** * YouTrack MCP tool facades: issue and project tools

    A shallow embedding of [tools/issues.py], [tools/projects.py] and the
    tool surface of [server.py].

    The facades are thin asynchronous methods: each performs a short, fixed
    sequence of remote calls (through [YouTrackClient], [IssuesClient] and
    [ProjectsClient]), reshapes the result and returns [json.dumps] of it;
    every method body sits in a [try ... except Exception] that turns a
    fault into an error object.

    Modelling decisions:
    - Python values are the inductive [value]; an object that is neither a
      builtin scalar nor a container is a [VObj] carrying its class name, its
      attributes, what [model_dump()] returns when it has that method, and its
      [str]/[repr] text.
    - Strings are [string]; a character is a code point below 256.
    - Exceptions are instances of [Exception]: [exn] carries [str(e)] and the
      decoded body of [e.response] when there is one.
    - The remote collaborators are a function [remote] from the history of
      calls made so far and the current call to a reply (a value or a raised
      exception).  Facade methods run in the monad [M], which threads the
      history and propagates exceptions; [await] is sequencing.
    - Logging has no effect on results and is left out, except that the
      attribute accesses inside a logged f-string are kept, since they can
      raise. *)

From Stdlib Require Import String Ascii List ZArith Bool Lia DecimalString.
Import ListNotations.
Open Scope string_scope.
Set Warnings "-register-all".

(* ===================================================================== *)
(** * The Python runtime the facades rely on *)
(* ===================================================================== *)

Module Py.

(** ** Exceptions and outcomes *)

Record exn : Type := mk_exn {
  exn_str : string;               (* str(e) *)
  exn_response : option string    (* e.response.content.decode(...) when e has a truthy response *)
}.

Definition TypeError (msg : string) : exn := mk_exn msg None.
Definition AttributeError (msg : string) : exn := mk_exn msg None.

Inductive outcome (A : Type) : Type :=
| Returned (a : A)
| Raised (e : exn).
Arguments Returned {A} a.
Arguments Raised {A} e.

(** ** Values *)

Record objinfo : Type := mk_objinfo {
  cls : string;        (* type(o).__name__ *)
  str_text : string;   (* str(o) *)
  repr_text : string   (* repr(o) *)
}.

Inductive value : Type :=
| VNone
| VBool (b : bool)
| VInt (z : Z)
| VStr (s : string)
| VList (l : list value)
| VDict (d : list (string * value))
| VObj (info : objinfo) (attrs : list (string * value)) (dump : option value).

Definition pydict := list (string * value).

(** ** Characters and text *)

Definition dq : string := String (ascii_of_nat 34) EmptyString.
Definition sq : string := String (ascii_of_nat 39) EmptyString.
Definition bsl : string := String (ascii_of_nat 92) EmptyString.
Definition newline : string := String (ascii_of_nat 10) EmptyString.

Definition hex_digit (n : nat) : string :=
  String.substring n 1 "0123456789abcdef".

Definition hex2 (n : nat) : string :=
  hex_digit (n / 16) ++ hex_digit (n mod 16).

Fixpoint spaces (n : nat) : string :=
  match n with
  | O => EmptyString
  | S k => String " " (spaces k)
  end.

Fixpoint flat_map_string (f : ascii -> string) (s : string) : string :=
  match s with
  | EmptyString => EmptyString
  | String c rest => f c ++ flat_map_string f rest
  end.

Fixpoint contains_char (c : ascii) (s : string) : bool :=
  match s with
  | EmptyString => false
  | String c' rest => Ascii.eqb c c' || contains_char c rest
  end.

Definition string_of_Z (z : Z) : string :=
  NilZero.string_of_int (Z.to_int z).

(** [s.startswith(p)] *)
Definition startswith (s p : string) : bool := String.prefix p s.

(** ** Dictionaries: insertion-ordered association lists *)

Fixpoint dict_get (k : string) (d : pydict) : option value :=
  match d with
  | [] => None
  | (k', v) :: rest => if String.eqb k k' then Some v else dict_get k rest
  end.

Definition dict_has (k : string) (d : pydict) : bool :=
  match dict_get k d with Some _ => true | None => false end.

(** [d[k] = v]: overwrite in place, or append a new key at the end. *)
Fixpoint dict_set (k : string) (v : value) (d : pydict) : pydict :=
  match d with
  | [] => [(k, v)]
  | (k', v') :: rest =>
      if String.eqb k k' then (k', v) :: rest else (k', v') :: dict_set k v rest
  end.

(** [d.get(k)] *)
Definition get (d : pydict) (k : string) : value :=
  match dict_get k d with Some v => v | None => VNone end.

(** ** Truthiness, type names, attributes *)

Definition truthy (v : value) : bool :=
  match v with
  | VNone => false
  | VBool b => b
  | VInt z => negb (Z.eqb z 0)
  | VStr s => negb (String.eqb s EmptyString)
  | VList l => match l with [] => false | _ => true end
  | VDict d => match d with [] => false | _ => true end
  | VObj _ _ _ => true
  end.

Definition type_name (v : value) : string :=
  match v with
  | VNone => "NoneType"
  | VBool _ => "bool"
  | VInt _ => "int"
  | VStr _ => "str"
  | VList _ => "list"
  | VDict _ => "dict"
  | VObj info _ _ => cls info
  end.

Definition isinstance_dict (v : value) : bool :=
  match v with VDict _ => true | _ => false end.

(** [hasattr(v, name)] for a data attribute. *)
Definition hasattr (v : value) (name : string) : bool :=
  match v with
  | VObj _ attrs _ => dict_has name attrs
  | _ => false
  end.

(** [hasattr(v, 'model_dump')] *)
Definition has_model_dump (v : value) : bool :=
  match v with
  | VObj _ _ (Some _) => true
  | _ => false
  end.

(** [v.model_dump()], for a [v] that has the method. *)
Definition model_dump (v : value) : value :=
  match v with
  | VObj _ _ (Some d) => d
  | _ => VNone
  end.

Definition no_attribute (v : value) (name : string) : exn :=
  AttributeError (sq ++ type_name v ++ sq ++ " object has no attribute " ++ sq ++ name ++ sq).

(** [v.name] *)
Definition getattr (v : value) (name : string) : outcome value :=
  match v with
  | VObj _ attrs _ =>
      match dict_get name attrs with
      | Some a => Returned a
      | None => Raised (no_attribute v name)
      end
  | _ => Raised (no_attribute v name)
  end.

(** [getattr(v, name, default)] *)
Definition getattr_default (v : value) (name : string) (default : value) : value :=
  match getattr v name with
  | Returned a => a
  | Raised _ => default
  end.

(** [v.startswith(p)]: only strings have the method. *)
Definition startswith_method (v : value) (p : string) : outcome bool :=
  match v with
  | VStr s => Returned (startswith s p)
  | _ => Raised (no_attribute v "startswith")
  end.


(** [a or b] on optional strings. *)
Definition or_else (a b : option string) : option string :=
  match a with
  | Some s => if String.eqb s EmptyString then b else a
  | None => b
  end.

(** ** [str] and [repr] *)

Definition repr_char (quote : ascii) (c : ascii) : string :=
  let n := nat_of_ascii c in
  if Ascii.eqb c quote then bsl ++ String c EmptyString
  else if Nat.eqb n 92 then bsl ++ bsl
  else if Nat.eqb n 9 then bsl ++ "t"
  else if Nat.eqb n 10 then bsl ++ "n"
  else if Nat.eqb n 13 then bsl ++ "r"
  else if (Nat.ltb n 32) || ((Nat.leb 127 n) && (Nat.leb n 160)) || (Nat.eqb n 173)
       then bsl ++ "x" ++ hex2 n
  else String c EmptyString.

Definition repr_string (s : string) : string :=
  let quote :=
    if contains_char (ascii_of_nat 39) s && negb (contains_char (ascii_of_nat 34) s)
    then ascii_of_nat 34 else ascii_of_nat 39 in
  String quote (flat_map_string (repr_char quote) s ++ String quote EmptyString).

Fixpoint repr (v : value) : string :=
  match v with
  | VNone => "None"
  | VBool b => if b then "True" else "False"
  | VInt z => string_of_Z z
  | VStr s => repr_string s
  | VList l => "[" ++ String.concat ", " (map repr l) ++ "]"
  | VDict d =>
      "{" ++ String.concat ", "
               (map (fun kv => repr_string (fst kv) ++ ": " ++ repr (snd kv)) d) ++ "}"
  | VObj info _ _ => repr_text info
  end.

Definition str (v : value) : string :=
  match v with
  | VStr s => s
  | VObj info _ _ => str_text info
  | _ => repr v
  end.

(** ** Iteration: [for x in v] *)

Fixpoint chars (s : string) : list value :=
  match s with
  | EmptyString => []
  | String c rest => VStr (String c EmptyString) :: chars rest
  end.

Definition iter (v : value) : outcome (list value) :=
  match v with
  | VList l => Returned l
  | VDict d => Returned (map (fun kv => VStr (fst kv)) d)
  | VStr s => Returned (chars s)
  | _ => Raised (TypeError (sq ++ type_name v ++ sq ++ " object is not iterable"))
  end.

(** ** [json.dumps] *)

Definition json_escape_char (c : ascii) : string :=
  let n := nat_of_ascii c in
  if Nat.eqb n 34 then bsl ++ dq
  else if Nat.eqb n 92 then bsl ++ bsl
  else if Nat.eqb n 10 then bsl ++ "n"
  else if Nat.eqb n 13 then bsl ++ "r"
  else if Nat.eqb n 9 then bsl ++ "t"
  else if Nat.eqb n 8 then bsl ++ "b"
  else if Nat.eqb n 12 then bsl ++ "f"
  else if (Nat.leb 32 n) && (Nat.leb n 126) then String c EmptyString
  else bsl ++ "u00" ++ hex2 n.

Definition json_quote (s : string) : string :=
  dq ++ flat_map_string json_escape_char s ++ dq.

(** Line break followed by the indentation of nesting level [lvl]. *)
Definition json_break (width lvl : nat) : string :=
  newline ++ spaces (width * lvl).

(** A container: [items] between [opening] and [closing]; [indent] is the
    [indent=] argument of [json.dumps] ([None] for the compact default). *)
Definition json_container (opening closing : string) (indent : option nat)
    (lvl : nat) (items : list string) : string :=
  match items with
  | [] => opening ++ closing
  | _ :: _ =>
      match indent with
      | None => opening ++ String.concat ", " items ++ closing
      | Some w =>
          opening ++ json_break w (S lvl)
            ++ String.concat ("," ++ json_break w (S lvl)) items
            ++ json_break w lvl ++ closing
      end
  end.

Definition not_serializable (v : value) : exn :=
  TypeError ("Object of type " ++ type_name v ++ " is not JSON serializable").

Fixpoint json_encode (indent : option nat) (lvl : nat) (v : value) : outcome string :=
  match v with
  | VNone => Returned "null"
  | VBool b => Returned (if b then "true" else "false")
  | VInt z => Returned (string_of_Z z)
  | VStr s => Returned (json_quote s)
  | VList l =>
      let items :=
        (fix each (l : list value) : outcome (list string) :=
           match l with
           | [] => Returned []
           | x :: rest =>
               match json_encode indent (S lvl) x with
               | Raised e => Raised e
               | Returned s =>
                   match each rest with
                   | Raised e => Raised e
                   | Returned ss => Returned (s :: ss)
                   end
               end
           end) l in
      match items with
      | Raised e => Raised e
      | Returned ss => Returned (json_container "[" "]" indent lvl ss)
      end
  | VDict d =>
      let items :=
        (fix each (d : pydict) : outcome (list string) :=
           match d with
           | [] => Returned []
           | (k, x) :: rest =>
               match json_encode indent (S lvl) x with
               | Raised e => Raised e
               | Returned s =>
                   match each rest with
                   | Raised e => Raised e
                   | Returned ss => Returned ((json_quote k ++ ": " ++ s) :: ss)
                   end
               end
           end) d in
      match items with
      | Raised e => Raised e
      | Returned ss => Returned (json_container "{" "}" indent lvl ss)
      end
  | VObj _ _ _ => Raised (not_serializable v)
  end.

(** The items of a dictionary at nesting level [lvl], as [json_encode]
    renders them. *)
Fixpoint json_items (indent : option nat) (lvl : nat) (d : pydict) : outcome (list string) :=
  match d with
  | [] => Returned []
  | (k, x) :: rest =>
      match json_encode indent (S lvl) x with
      | Raised e => Raised e
      | Returned s =>
          match json_items indent lvl rest with
          | Raised e => Raised e
          | Returned ss => Returned ((json_quote k ++ ": " ++ s) :: ss)
          end
      end
  end.

(** [json.dumps(v)] and [json.dumps(v, indent=w)] *)
Definition json_dumps (indent : option nat) (v : value) : outcome string :=
  json_encode indent 0 v.

End Py.

(* ===================================================================== *)
(** * Remote collaborators and the facade monad *)
(* ===================================================================== *)

Module Remote.
Import Py.

(** One constructor per method of [YouTrackClient], [IssuesClient] and
    [ProjectsClient] that the facades call. *)
Inductive call : Type :=
| ClientGet (path : string) (params : option value)
| ClientPost (path : string) (data : value)
| IssuesCreateIssue (project_id summary description additional_fields : value)
| IssuesAddComment (issue_id text : string)
| ProjectsGetProjects (include_archived : bool)
| ProjectsGetProject (project_id : string)
| ProjectsGetProjectByName (project_name : value)
| ProjectsGetProjectIssues (project_id : value) (limit : Z)
| ProjectsGetCustomFields (project_id : string)
| ProjectsGetProjectDetailed (project_id : string)
| ProjectsGetProjectFieldsFromIssues (project_id : string)
| ProjectsCreateProject (name short_name lead_id : string) (description : option string).

(** What a call is answered with, and a call together with its answer. *)
Abbreviation reply := (outcome value).
Abbreviation event := (call * outcome value)%type.

(** Calls made so far with their replies, oldest first. *)
Definition history := list event.

(** The behaviour of the remote side: any function of what happened so far
    and of the call being made. *)
Definition oracle := history -> call -> reply.

Definition M (A : Type) : Type := history -> outcome A * history.

Definition ret {A} (a : A) : M A := fun h => (Returned a, h).

Definition lift {A} (o : outcome A) : M A := fun h => (o, h).

Definition bind {A B} (m : M A) (k : A -> M B) : M B :=
  fun h =>
    match m h with
    | (Returned a, h') => k a h'
    | (Raised e, h') => (Raised e, h')
    end.

(** [try: m  except Exception as e: handler e] *)
Definition try_except {A} (m : M A) (handler : exn -> M A) : M A :=
  fun h =>
    match m h with
    | (Returned a, h') => (Returned a, h')
    | (Raised e, h') => handler e h'
    end.

(** [await <remote call>] *)
Definition await (remote : oracle) (c : call) : M value :=
  fun h => (remote h c, (h ++ [(c, remote h c)])%list).

(** [json.dumps] inside a method body. *)
Definition dumps (indent : option nat) (v : value) : M string :=
  lift (json_dumps indent v).

Declare Scope facade_scope.
Delimit Scope facade_scope with facade.
Notation "x <- m ;; k" := (bind m (fun x => k))
  (at level 100, m at next level, k at level 200, right associativity) : facade_scope.
Notation "'attempt' m 'except' e => h" := (try_except m (fun e => h))
  (at level 100, m at level 200, e name, h at level 200) : facade_scope.

(** A remote side that answers the n-th call of a run with the n-th reply
    of a script, whatever the call; used to run the facades on examples. *)
Definition scripted (script : list reply) : oracle :=
  fun h _ => nth (List.length h) script (Raised (mk_exn "connection closed" None)).

(** [wp m h Q]: run from history [h], the computation [m] ends with an
    outcome and new events that satisfy [Q]. *)
Definition wp {A} (m : M A) (h : history) (Q : outcome A -> list event -> Prop) : Prop :=
  exists o evs, m h = (o, (h ++ evs)%list) /\ Q o evs.

(** The calls of a list of events. *)
Definition calls (evs : list event) : list call := map fst evs.


Definition is_create_issue (c : call) : bool :=
  match c with IssuesCreateIssue _ _ _ _ => true | _ => false end.

End Remote.

(* ===================================================================== *)
(** * tools/issues.py *)
(* ===================================================================== *)

Module IssueTools.
Import Py Remote.
Local Open Scope facade_scope.

(** [{'error': msg}] and [{'error': msg, 'status': 'error'}] *)
Definition error_dict (msg : string) : value :=
  VDict [("error", VStr msg)].

Definition error_status_dict (msg : string) : value :=
  VDict [("error", VStr msg); ("status", VStr "error")].


Section Facade.

Variable remote : oracle.

(** [Config.YOUTRACK_URL]; empty when no base URL is configured. *)
Variable YOUTRACK_URL : string.



(** [IssueTools._extract_parameters_from_dict] (lines 87-95). *)
Definition _extract_parameters_from_dict (project : pydict)
  : value * value * value * value :=
  let description := get project "description" in
  let summary := get project "summary" in
  let custom_fields := get project "custom_fields" in
  let project_name := get project "project" in
  (project_name, summary, description, custom_fields).

(** [IssueTools._generate_issue_url] (lines 97-109). *)
Definition _generate_issue_url (issue_id readable_id : value) : option string :=
  if negb (truthy issue_id || truthy readable_id) then None
  else
    let base_url :=
      if truthy (VStr YOUTRACK_URL) then YOUTRACK_URL
      else "https://youtrack.gaijin.team" in
    if truthy readable_id then Some (base_url ++ "/issue/" ++ str readable_id)
    else if truthy issue_id then Some (base_url ++ "/issue/" ++ str issue_id)
    else None.

(** [IssueTools._prepare_issue_response] (lines 111-135). *)
Definition _prepare_issue_response (issue : value) (issue_url : option string)
    (summary description project : value) : value :=
  let result :=
    if has_model_dump issue then model_dump issue
    else if isinstance_dict issue then issue
    else VDict [("id", getattr_default issue "id" VNone);
                ("summary", getattr_default issue "summary" summary);
                ("description", getattr_default issue "description" description);
                ("project", project);
                ("$type", VStr "Issue")] in
  match issue_url, result with
  | Some url, VDict d =>
      if truthy (VStr url)
      then VDict (dict_set "status" (VStr "success") (dict_set "url" (VStr url) d))
      else result
  | _, _ => result
  end.

(** [IssueTools.create_issue] (lines 137-251).  The arguments are values:
    the method itself tests whether [project] is a mapping. *)
Definition create_issue (project summary description custom_fields : value) : M string :=
  attempt
    (let '(project, summary, description, custom_fields) :=
       match project with
       | VDict d =>
           if dict_has "project" d && dict_has "summary" d
           then _extract_parameters_from_dict d
           else (project, summary, description, custom_fields)
       | _ => (project, summary, description, custom_fields)
       end in
     if negb (truthy project) then dumps None (error_status_dict "Project is required")
     else if negb (truthy summary) then dumps None (error_status_dict "Summary is required")
     else
       (* inl s: the method returns s; inr id: execution goes on with project_id = id *)
       resolved <-
         (if truthy project then
            is_id <- lift (startswith_method project "0-") ;;
            if negb is_id then
              attempt
                (project_obj <- await remote (ProjectsGetProjectByName project) ;;
                 if truthy project_obj then
                   _ <- lift (getattr project_obj "name") ;;
                   id <- lift (getattr project_obj "id") ;;
                   ret (inr id)
                 else
                   s <- dumps None (error_status_dict ("Project not found: " ++ str project)) ;;
                   ret (inl s))
              except e =>
                (s <- dumps None (error_status_dict ("Error finding project: " ++ exn_str e)) ;;
                 ret (inl s))
            else ret (inr project)
          else ret (inr project)) ;;
       match resolved with
       | inl early => ret early
       | inr project_id =>
           let additional_fields := if truthy custom_fields then custom_fields else VDict [] in
           attempt
             (issue <- await remote
                         (IssuesCreateIssue project_id summary description additional_fields) ;;
              if match issue with VDict d => truthy (get d "error") | _ => false end
              then dumps None issue
              else
                let '(issue_id, readable_id) :=
                  if hasattr issue "id" then
                    (getattr_default issue "id" VNone,
                     if hasattr issue "idReadable"
                     then getattr_default issue "idReadable" VNone else VNone)
                  else
                    match issue with
                    | VDict d => (get d "id", get d "idReadable")
                    | _ => (VNone, VNone)
                    end in
                let issue_url := _generate_issue_url issue_id readable_id in
                let result :=
                  _prepare_issue_response issue issue_url summary description project in
                dumps (Some 2) result)
           except e =>
             (let error_msg :=
                match exn_response e with
                | Some error_content => exn_str e ++ " - " ++ error_content
                | None => exn_str e
                end in
              dumps None (error_status_dict error_msg))
       end)
  except e => dumps None (error_status_dict (exn_str e)).



End Facade.

End IssueTools.

(* ===================================================================== *)
(** * tools/projects.py *)
(* ===================================================================== *)

Module ProjectTools.
Import Py Remote.
Local Open Scope facade_scope.

Definition error_dict (msg : string) : value :=
  VDict [("error", VStr msg)].

(** [x.model_dump() if hasattr(x, 'model_dump') else x] *)
Definition dump_or_self (x : value) : value :=
  if has_model_dump x then model_dump x else x.


(** The sparse patch that [update_project] builds (lines 376-388): only
    the supplied arguments. *)
Definition patch_data (name description : option string) (archived : option bool)
    (lead_id short_name : option string) : pydict :=
  let data := [] in
  let data := match name with Some n => dict_set "name" (VStr n) data | None => data end in
  let data :=
    match description with Some d => dict_set "description" (VStr d) data | None => data end in
  let data :=
    match archived with Some a => dict_set "archived" (VBool a) data | None => data end in
  let data :=
    match lead_id with
    | Some l => dict_set "leader" (VDict [("id", VStr l)]) data
    | None => data
    end in
  let data :=
    match short_name with Some s => dict_set "shortName" (VStr s) data | None => data end in
  data.

Section Facade.

Variable remote : oracle.




(** [ProjectTools.get_project_issues] (lines 121-166). *)
Definition get_project_issues (project_id project : option string) (limit : Z) : M string :=
  attempt
    (match or_else project_id project with
     | None => dumps None (error_dict "Project ID is required")
     | Some project_identifier =>
       if negb (truthy (VStr project_identifier))
       then dumps None (error_dict "Project ID is required")
       else
         (* inl s: the method returns s; inr tt: execution reaches the lookup by name *)
         direct <-
           (attempt
              (issues <- await remote
                           (ProjectsGetProjectIssues (VStr project_identifier) limit) ;;
               if truthy issues then
                 s <- dumps (Some 2) issues ;;
                 ret (inl s)
               else ret (inr tt))
            except e =>
              (if negb (startswith (exn_str e) "Project not found") then
                 s <- dumps None (error_dict (exn_str e)) ;;
                 ret (inl s)
               else ret (inr tt))) ;;
         match direct with
         | inl early => ret early
         | inr _ =>
             attempt
               (project_obj <- await remote
                                 (ProjectsGetProjectByName (VStr project_identifier)) ;;
                if truthy project_obj then
                  id <- lift (getattr project_obj "id") ;;
                  issues <- await remote (ProjectsGetProjectIssues id limit) ;;
                  dumps (Some 2) issues
                else dumps None (error_dict ("Project not found: " ++ project_identifier)))
             except e => dumps None (error_dict (exn_str e))
         end
     end)
  except e => dumps None (error_dict (exn_str e)).





(** [ProjectTools.update_project] (lines 337-424). *)
Definition update_project (project_id project : option string)
    (name description : option string) (archived : option bool)
    (lead_id short_name : option string) : M string :=
  attempt
    (match or_else project_id project with
     | None => dumps None (error_dict "Project ID is required")
     | Some project_identifier =>
       if negb (truthy (VStr project_identifier))
       then dumps None (error_dict "Project ID is required")
       else
         attempt
           (existing_project <- await remote (ProjectsGetProject project_identifier) ;;
            _ <- lift (getattr existing_project "name") ;;
            _ <- lift (getattr existing_project "id") ;;
            let data := patch_data name description archived lead_id short_name in
            if negb (truthy (VDict data)) then dumps (Some 2) (dump_or_self existing_project)
            else
              _ <- (attempt
                      (_ <- await remote
                              (ClientPost ("admin/projects/" ++ project_identifier) (VDict data)) ;;
                       ret tt)
                    except e => ret tt) ;;
              attempt
                (updated_project <- await remote (ProjectsGetProject project_identifier) ;;
                 _ <- lift (getattr updated_project "name") ;;
                 dumps (Some 2) (dump_or_self updated_project))
              except e =>
                dumps None
                  (error_dict
                     ("Project was updated but could not retrieve the result: " ++ exn_str e)))
         except e => dumps None (error_dict ("Could not update project: " ++ exn_str e))
     end)
  except e => dumps None (error_dict (exn_str e)).

End Facade.

End ProjectTools.

(* ===================================================================== *)
(** * The tool surface (server.py and the facade classes) *)
(* ===================================================================== *)

Module Surface.
Import Py Remote.



(** ** Vocabulary of the properties *)

(** [s] is the output of [json.dumps] on some value. *)
Definition JsonText (s : string) : Prop :=
  exists indent v, json_dumps indent v = Returned s.

(** [s] is the JSON text of an object that has an [error] key. *)
Definition ErrorObject (s : string) : Prop :=
  exists indent d, json_dumps indent (VDict d) = Returned s /\ dict_has "error" d = true.



(** What [json.dumps] returns on [{'error': msg}] and on
    [{'error': msg, 'status': 'error'}]. *)
Definition error_json (msg : string) : string :=
  "{" ++ (json_quote "error" ++ ": " ++ json_quote msg) ++ "}".

Definition error_status_json (msg : string) : string :=
  "{" ++ ((json_quote "error" ++ ": " ++ json_quote msg) ++ ", "
          ++ (json_quote "status" ++ ": " ++ json_quote "error")) ++ "}".

(** Text that [json.dumps] copies as it is: printable ASCII without the
    double quote and the backslash. *)
Fixpoint plain (s : string) : bool :=
  match s with
  | EmptyString => true
  | String c rest =>
      let n := nat_of_ascii c in
      Nat.leb 32 n && Nat.leb n 126 && negb (Nat.eqb n 34) && negb (Nat.eqb n 92)
      && plain rest
  end.


(** A text between double quotes, nothing escaped. *)
Definition quoted (s : string) : string := dq ++ s ++ dq.

(** The text [{"error": "<msg>"}], for a message that needs no escaping. *)
Definition error_text (msg : string) : string :=
  "{" ++ quoted "error" ++ ": " ++ quoted msg ++ "}".

(** The text [{"error": "<msg>", "status": "error"}], likewise. *)
Definition error_status_text (msg : string) : string :=
  "{" ++ quoted "error" ++ ": " ++ quoted msg ++ ", "
      ++ quoted "status" ++ ": " ++ quoted "error" ++ "}".

(** The base URL that issue links are built on. *)
Definition base_url (YOUTRACK_URL : string) : string :=
  if String.eqb YOUTRACK_URL EmptyString then "https://youtrack.gaijin.team"
  else YOUTRACK_URL.

(** What a create response carries when it is a Pydantic model exposing
    [id] or a plain mapping without a truthy [error]: its mapping form, its
    internal ID and its readable ID ([None] when absent). *)
Definition created_issue (issue : value) : option (pydict * value * value) :=
  match issue with
  | VObj _ attrs (Some (VDict d)) =>
      match dict_get "id" attrs with
      | Some issue_id => Some (d, issue_id, get attrs "idReadable")
      | None => None
      end
  | VDict d =>
      if truthy (get d "error") then None else Some (d, get d "id", get d "idReadable")
  | _ => None
  end.

(** The result [o] of [create_issue] for a created issue with mapping form
    [d] and the given identifiers: with a truthy identifier, [d] as JSON
    with [status] and [url] set; with none, [d] as JSON and nothing added. *)
Definition linked_result (YOUTRACK_URL : string) (o : outcome string) (d : pydict)
    (issue_id readable_id : value) : Prop :=
  if truthy readable_id || truthy issue_id then
    exists s d',
      o = Returned s
      /\ json_dumps (Some 2) (VDict d') = Returned s
      /\ dict_get "status" d' = Some (VStr "success")
      /\ dict_get "url" d'
         = Some (VStr (base_url YOUTRACK_URL ++ "/issue/"
                         ++ str (if truthy readable_id then readable_id else issue_id)))
      /\ (forall k, k <> "url" -> k <> "status" -> dict_get k d' = dict_get k d)
  else o = json_dumps (Some 2) (VDict d).

(** What a run of [create_issue] returns when its last remote call is a
    create call answered with a model or a mapping. *)
Definition created_post (YOUTRACK_URL : string) (o : outcome string) (evs' : list event)
  : Prop :=
  forall evs c issue,
    evs' = (evs ++ [(c, Returned issue)])%list ->
    is_create_issue c = true ->
    forall d issue_id readable_id,
      created_issue issue = Some (d, issue_id, readable_id) ->
      (exists s0, json_dumps (Some 2) (VDict d) = Returned s0) ->
      linked_result YOUTRACK_URL o d issue_id readable_id.


End Surface.

(* ===================================================================== *)
(** * Example values *)
(* ===================================================================== *)

Module Examples.
Import Py Remote.

(** A [Project] model as [ProjectsClient] returns it. *)
Definition demo_project : value :=
  VObj (mk_objinfo "Project" "id='0-1' name='Demo'" "Project(id='0-1', name='Demo')")
    [("id", VStr "0-1"); ("name", VStr "Demo"); ("shortName", VStr "DEMO")]
    (Some (VDict [("id", VStr "0-1"); ("name", VStr "Demo"); ("shortName", VStr "DEMO")])).


(** An [Issue] model with both identifiers. *)
Definition demo_issue : value :=
  VObj (mk_objinfo "Issue" "id='2-5'" "Issue(id='2-5')")
    [("id", VStr "2-5"); ("idReadable", VStr "DEMO-7")]
    (Some (VDict [("id", VStr "2-5"); ("idReadable", VStr "DEMO-7")])).

(** A minimal issue as the REST API may return it. *)
Definition minimal_issue : pydict :=
  [("$type", VStr "Issue"); ("id", VStr "2-5")].

(** A create response that carries a status of its own and no identifier. *)
Definition status_only : pydict := [("status", VStr "success")].

Definition server_error : exn := mk_exn "500 Internal Server Error" None.
Definition not_found : exn := mk_exn "Project not found: DEMO" None.

Definition demo_url : string := "https://youtrack.example.com".

(** A run of [create_issue]: the short name resolves and the create call
    returns an issue model. *)
Definition create_demo : outcome string * history :=
  IssueTools.create_issue
    (scripted [Returned demo_project; Returned demo_issue]) demo_url
    (VStr "DEMO") (VStr "Login fails") VNone VNone [].

End Examples.
(* ===================================================================== *)
(** * Facts about the runtime *)
(* ===================================================================== *)

Module PyFacts.
Import Py.

Lemma append_assoc (a b c : string) : ((a ++ b) ++ c = a ++ (b ++ c))%string.
Proof.
  induction a as [| ch rest IH]; simpl; [reflexivity | now rewrite IH].
Qed.

Lemma truthy_str (s : string) : s <> EmptyString -> truthy (VStr s) = true.
Proof.
  intros Hs. simpl. destruct (String.eqb_spec s EmptyString); [contradiction | reflexivity].
Qed.

Lemma dict_get_set_same k v d : dict_get k (dict_set k v d) = Some v.
Proof.
  induction d as [| [k' v'] rest IH]; simpl.
  - now rewrite String.eqb_refl.
  - destruct (String.eqb k k') eqn:E; simpl; rewrite E; auto.
Qed.

Lemma dict_get_set_other k k' v d :
  k' <> k -> dict_get k' (dict_set k v d) = dict_get k' d.
Proof.
  intros Hne. induction d as [| [k0 v0] rest IH]; simpl.
  - destruct (String.eqb_spec k' k); [contradiction | reflexivity].
  - destruct (String.eqb_spec k k0) as [-> | Hk]; simpl.
    + destruct (String.eqb_spec k' k0); [contradiction | reflexivity].
    + destruct (String.eqb k' k0); auto.
Qed.


(** The dictionary case of [json_encode], through [json_items]. *)
Lemma json_encode_dict indent lvl d :
  json_encode indent lvl (VDict d) =
  match json_items indent lvl d with
  | Raised e => Raised e
  | Returned ss => Returned (json_container "{" "}" indent lvl ss)
  end.
Proof.
  simpl.
  match goal with
  | |- match ?f d with _ => _ end = _ => assert (Heach : f d = json_items indent lvl d)
  end.
  { induction d as [| [k x] rest IH]; simpl; [reflexivity |].
    destruct (json_encode indent (S lvl) x); [| reflexivity].
    now rewrite IH. }
  now rewrite Heach.
Qed.

Lemma json_items_set indent lvl k v d ss s :
  json_items indent lvl d = Returned ss ->
  json_encode indent (S lvl) v = Returned s ->
  exists ss', json_items indent lvl (dict_set k v d) = Returned ss'.
Proof.
  revert ss. induction d as [| [k' v'] rest IH]; simpl; intros ss Hd Hv.
  - rewrite Hv. eauto.
  - destruct (json_encode indent (S lvl) v') eqn:Ev'; [| discriminate].
    destruct (json_items indent lvl rest) eqn:Erest; [| discriminate].
    destruct (String.eqb k k'); simpl.
    + rewrite Hv, Erest. eauto.
    + rewrite Ev'. destruct (IH _ eq_refl Hv) as [ss' ->]. eauto.
Qed.

(** A serialisable dictionary stays serialisable when a string is stored
    in it. *)
Lemma json_dumps_set_str indent k x d s :
  json_dumps indent (VDict d) = Returned s ->
  exists s', json_dumps indent (VDict (dict_set k (VStr x) d)) = Returned s'.
Proof.
  unfold json_dumps. rewrite !json_encode_dict. intros Hd.
  destruct (json_items indent 0 d) as [ss |] eqn:Ed; [| discriminate].
  destruct (json_items_set indent 0 k (VStr x) d ss (json_quote x) Ed eq_refl) as [ss' ->].
  eauto.
Qed.

Lemma dumps_single_str k msg :
  json_dumps None (VDict [(k, VStr msg)])
  = Returned ("{" ++ (json_quote k ++ ": " ++ json_quote msg) ++ "}").
Proof. reflexivity. Qed.

Lemma dumps_error msg :
  json_dumps None (VDict [("error", VStr msg)]) = Returned (Surface.error_json msg).
Proof. reflexivity. Qed.

Lemma dumps_error_status msg :
  json_dumps None (VDict [("error", VStr msg); ("status", VStr "error")])
  = Returned (Surface.error_status_json msg).
Proof. reflexivity. Qed.

Lemma plain_cons c rest :
  Surface.plain (String c rest) =
  (Nat.leb 32 (nat_of_ascii c) && Nat.leb (nat_of_ascii c) 126
   && negb (Nat.eqb (nat_of_ascii c) 34) && negb (Nat.eqb (nat_of_ascii c) 92)
   && Surface.plain rest).
Proof. reflexivity. Qed.

Lemma json_escape_plain_char c rest :
  Surface.plain (String c rest) = true -> json_escape_char c = String c EmptyString.
Proof.
  rewrite plain_cons. unfold json_escape_char.
  generalize (nat_of_ascii c) as n. intros n H.
  repeat (apply andb_prop in H; destruct H as [H ?]).
  repeat match goal with
  | Hb : negb _ = true |- _ => apply negb_true_iff in Hb; rewrite Hb
  end.
  repeat match goal with
  | |- context [Nat.eqb n ?k] =>
      destruct (Nat.eqb_spec n k) as [-> | _]; [discriminate |]
  end.
  match goal with
  | Hle : Nat.leb n 126 = true |- _ => rewrite H, Hle
  end.
  reflexivity.
Qed.

(** Plain text is quoted without any escape. *)
Lemma json_quote_plain s : Surface.plain s = true -> json_quote s = Surface.quoted s.
Proof.
  intros Hs. unfold json_quote, Surface.quoted. do 2 f_equal.
  induction s as [| c rest IH]; [reflexivity |].
  change (flat_map_string json_escape_char (String c rest))
    with (json_escape_char c ++ flat_map_string json_escape_char rest).
  rewrite (json_escape_plain_char c rest Hs).
  rewrite plain_cons in Hs. apply andb_prop in Hs. destruct Hs as [_ Hrest].
  rewrite (IH Hrest). reflexivity.
Qed.

Lemma plain_app a b :
  Surface.plain a = true -> Surface.plain b = true -> Surface.plain (a ++ b) = true.
Proof.
  intros Ha Hb. induction a as [| c rest IH]; [exact Hb |].
  change (String c rest ++ b) with (String c (rest ++ b)).
  rewrite plain_cons in *. apply andb_prop in Ha. destruct Ha as [Hc Hrest].
  rewrite Hc, (IH Hrest). reflexivity.
Qed.

(** On a plain message the error object is the expected literal text. *)
Lemma error_status_json_plain msg :
  Surface.plain msg = true -> Surface.error_status_json msg = Surface.error_status_text msg.
Proof.
  intros Hm. unfold Surface.error_status_json, Surface.error_status_text.
  rewrite (json_quote_plain msg Hm).
  change (json_quote "error") with (Surface.quoted "error").
  change (json_quote "status") with (Surface.quoted "status").
  now rewrite !append_assoc.
Qed.

(** ** The runtime model on small inputs *)

Example json_dumps_compact :
  json_dumps None (VDict [("a", VList [VInt 1; VNone]); ("b", VBool true)])
  = Returned ("{" ++ Surface.quoted "a" ++ ": [1, null], "
                  ++ Surface.quoted "b" ++ ": true}").
Proof. reflexivity. Qed.

Example json_dumps_indented :
  json_dumps (Some 2) (VDict [("a", VList [VInt (-1)]); ("b", VDict [])])
  = Returned ("{" ++ newline ++ "  " ++ Surface.quoted "a" ++ ": [" ++ newline
                  ++ "    -1" ++ newline ++ "  ]," ++ newline
                  ++ "  " ++ Surface.quoted "b" ++ ": {}" ++ newline ++ "}").
Proof. reflexivity. Qed.

Example json_dumps_escapes :
  json_dumps None (VStr ("a" ++ dq ++ newline ++ "b"))
  = Returned (dq ++ "a" ++ bsl ++ dq ++ bsl ++ "nb" ++ dq).
Proof. reflexivity. Qed.

Example json_dumps_object :
  json_dumps None (VList [Examples.demo_issue])
  = Raised (TypeError "Object of type Issue is not JSON serializable").
Proof. reflexivity. Qed.

Example str_of_a_list :
  str (VList [VStr "a"; VInt 3; VNone; VBool false]) = "['a', 3, None, False]".
Proof. reflexivity. Qed.

Example missing_attribute :
  getattr (VDict []) "name"
  = Raised (AttributeError "'dict' object has no attribute 'name'").
Proof. reflexivity. Qed.

Example not_iterable :
  iter (VInt 7) = Raised (TypeError "'int' object is not iterable").
Proof. reflexivity. Qed.

End PyFacts.

(* ===================================================================== *)
(** * Running a facade method *)
(* ===================================================================== *)

Module RunFacts.
Import Py Remote Surface.

Lemma json_text_of indent v s : json_dumps indent v = Returned s -> JsonText s.
Proof. intros H. now exists indent, v. Qed.

Lemma json_text_error msg : JsonText (error_json msg).
Proof. exact (json_text_of None _ _ (PyFacts.dumps_error msg)). Qed.

Lemma json_text_error_status msg : JsonText (error_status_json msg).
Proof. exact (json_text_of None _ _ (PyFacts.dumps_error_status msg)). Qed.

Lemma error_object_error msg : ErrorObject (error_json msg).
Proof.
  exists None, [("error", VStr msg)]. split; [apply PyFacts.dumps_error | reflexivity].
Qed.

Lemma error_object_error_status msg : ErrorObject (error_status_json msg).
Proof.
  exists None, [("error", VStr msg); ("status", VStr "error")].
  split; [apply PyFacts.dumps_error_status | reflexivity].
Qed.


Create HintDb facade.
#[export] Hint Resolve json_text_error json_text_error_status
  error_object_error error_object_error_status : facade.

(** ** Rules of the weakest precondition [wp] *)

Lemma wp_ret {A} (a : A) h Q : Q (Returned a) [] -> wp (ret a) h Q.
Proof. intros HQ. exists (Returned a), []. now rewrite app_nil_r. Qed.

Lemma wp_lift {A} (o : outcome A) h Q : Q o [] -> wp (lift o) h Q.
Proof. intros HQ. exists o, []. now rewrite app_nil_r. Qed.

Lemma wp_dumps indent v h Q : Q (json_dumps indent v) [] -> wp (dumps indent v) h Q.
Proof. apply wp_lift. Qed.

Lemma wp_await remote c h Q :
  Q (remote h c) [(c, remote h c)] -> wp (await remote c) h Q.
Proof. intros HQ. now exists (remote h c), [(c, remote h c)]. Qed.

Lemma wp_bind {A B} (m : M A) (k : A -> M B) h Q :
  wp m h (fun o evs =>
            match o with
            | Returned a => wp (k a) (h ++ evs)%list (fun o' evs' => Q o' (evs ++ evs')%list)
            | Raised e => Q (Raised e) evs
            end) ->
  wp (bind m k) h Q.
Proof.
  intros (o & evs & Hm & Hk). unfold wp, bind. rewrite Hm. destruct o as [a | e].
  - destruct Hk as (o' & evs' & Hk & HQ). exists o', (evs ++ evs')%list.
    now rewrite Hk, app_assoc.
  - now exists (Raised e), evs.
Qed.

Lemma wp_try {A} (m : M A) (handler : exn -> M A) h Q :
  wp m h (fun o evs =>
            match o with
            | Returned a => Q (Returned a) evs
            | Raised e =>
                wp (handler e) (h ++ evs)%list (fun o' evs' => Q o' (evs ++ evs')%list)
            end) ->
  wp (try_except m handler) h Q.
Proof.
  intros (o & evs & Hm & Hk). unfold wp, try_except. rewrite Hm. destruct o as [a | e].
  - now exists (Returned a), evs.
  - destruct Hk as (o' & evs' & Hk & HQ). exists o', (evs ++ evs')%list.
    now rewrite Hk, app_assoc.
Qed.

(** What [wp] says about the run itself. *)
Lemma wp_run {A} (m : M A) h o evs :
  wp m h (fun o' evs' => o' = o /\ evs' = evs) -> m h = (o, (h ++ evs)%list).
Proof. intros (o' & evs' & Hm & -> & ->). exact Hm. Qed.

Lemma wp_run_quiet {A} (m : M A) h o :
  wp m h (fun o' evs' => o' = o /\ evs' = []) -> m h = (o, h).
Proof. intros H. apply wp_run in H. now rewrite app_nil_r in H. Qed.

(** The outcome and the new events of a run are determined. *)
Lemma wp_elim {A} (m : M A) h Q o evs :
  wp m h Q -> m h = (o, (h ++ evs)%list) -> Q o evs.
Proof.
  intros (o' & evs' & Hm & HQ) Hrun. rewrite Hm in Hrun.
  injection Hrun as -> Hh. apply app_inv_head in Hh. now subst.
Qed.

(** One step of symbolic execution: a monad operation, a known reply, or
    a case split on what the run depends on next. *)
Ltac wp_step :=
  cbv beta; rewrite ?app_nil_r, <- ?app_assoc; cbn [app negb];
  rewrite ?PyFacts.dumps_error, ?PyFacts.dumps_error_status, ?PyFacts.dumps_single_str;
  lazymatch goal with
  | |- wp (bind _ _) _ _ => apply wp_bind
  | |- wp (try_except _ _) _ _ => apply wp_try
  | |- wp (await _ _) _ _ => apply wp_await
  | |- wp (ret _) _ _ => apply wp_ret
  | |- wp (lift _) _ _ => apply wp_lift
  | |- wp (dumps _ _) _ _ => apply wp_dumps
  | H : ?b = _ |- wp (if negb ?b then _ else _) _ _ => rewrite H
  | H : ?b = _ |- wp (if ?b then _ else _) _ _ => rewrite H
  | |- wp (if ?b then _ else _) _ _ => destruct b eqn:?
  | H : ?x = _ |- wp (match ?x with _ => _ end) _ _ => rewrite H
  | |- wp (match ?x with _ => _ end) _ _ => destruct x eqn:?
  | |- wp (let '(_, _) := ?x in _) _ _ => destruct x eqn:?
  | H : ?x = _ |- context [match ?x with Returned _ => _ | Raised _ => _ end] => rewrite H
  | |- context [match json_dumps ?i ?v with Returned _ => _ | Raised _ => _ end] =>
      destruct (json_dumps i v) eqn:?
  | |- context [match ?x with Returned _ => _ | Raised _ => _ end] =>
      let y := eval hnf in x in
      lazymatch y with
      | Returned _ => change x with y; cbv iota
      | Raised _ => change x with y; cbv iota
      | _ => destruct x eqn:?
      end
  | |- context [match ?x with inl _ => _ | inr _ => _ end] => destruct x eqn:?
  end.

Ltac wp_run :=
  repeat wp_step;
  cbv beta; rewrite ?app_nil_r, <- ?app_assoc; cbn [app negb];
  rewrite ?PyFacts.dumps_error, ?PyFacts.dumps_error_status, ?PyFacts.dumps_single_str;
  cbv beta iota.




Section Safety.
Variable remote : oracle.
Variable url : string.















End Safety.
End RunFacts.

(* ===================================================================== *)
(** * The fault boundary *)
(* ===================================================================== *)

Module Boundary.
Import Py Remote Surface.


End Boundary.

(* ===================================================================== *)
(** * Properties of the issue facade *)
(* ===================================================================== *)

Module IssueFacts.
Import Py Remote Surface RunFacts.

Lemma snoc_last (l evs0 : list event) (x : event) :
  l = (evs0 ++ [x])%list -> last l x = x.
Proof. intros ->. apply last_last. Qed.

Lemma truthy_issue_url (base tail : string) : truthy (VStr (base ++ "/issue/" ++ tail)) = true.
Proof. destruct base; reflexivity. Qed.

Section Issues.
Variable remote : oracle.
Variable YOUTRACK_URL : string.

Lemma generate_issue_url_some (issue_id readable_id : value) :
  truthy readable_id || truthy issue_id = true ->
  IssueTools._generate_issue_url YOUTRACK_URL issue_id readable_id
  = Some (base_url YOUTRACK_URL ++ "/issue/"
            ++ str (if truthy readable_id then readable_id else issue_id)).
Proof.
  unfold IssueTools._generate_issue_url, base_url. intros Hids.
  rewrite orb_comm, Hids. cbn [negb truthy].
  destruct (truthy readable_id) eqn:Hr.
  - destruct (String.eqb YOUTRACK_URL EmptyString); reflexivity.
  - cbn in Hids. rewrite Hids. destruct (String.eqb YOUTRACK_URL EmptyString); reflexivity.
Qed.

Lemma generate_issue_url_none (issue_id readable_id : value) :
  truthy readable_id || truthy issue_id = false ->
  IssueTools._generate_issue_url YOUTRACK_URL issue_id readable_id = None.
Proof.
  unfold IssueTools._generate_issue_url. intros Hids. now rewrite orb_comm, Hids.
Qed.

(** The result text of [create_issue] for a create response that is a
    model or a mapping. *)
Lemma created_result issue d issue_id readable_id summary description project ids o :
  created_issue issue = Some (d, issue_id, readable_id) ->
  (exists s0, json_dumps (Some 2) (VDict d) = Returned s0) ->
  (if hasattr issue "id" then
     (getattr_default issue "id" VNone,
      if hasattr issue "idReadable" then getattr_default issue "idReadable" VNone else VNone)
   else match issue with
        | VDict d => (get d "id", get d "idReadable")
        | _ => (VNone, VNone)
        end) = ids ->
  json_dumps (Some 2)
    (IssueTools._prepare_issue_response issue
       (IssueTools._generate_issue_url YOUTRACK_URL (fst ids) (snd ids))
       summary description project) = o ->
  linked_result YOUTRACK_URL o d issue_id readable_id.
Proof.
  intros Hshape [s0 Hs0] Hpair Ho.
  assert (Hids' : ids = (issue_id, readable_id)
          /\ (if has_model_dump issue then model_dump issue
              else if isinstance_dict issue then issue else VNone) = VDict d
          /\ (has_model_dump issue || isinstance_dict issue = true)).
  { subst ids. destruct issue as [| | | | | d0 | info attrs [dump |]]; try discriminate.
    - cbn in Hshape |- *. destruct (truthy (get d0 "error")); [discriminate |].
      now injection Hshape as <- <- <-.
    - cbn in Hshape |- *. destruct dump; try discriminate.
      unfold dict_has, getattr_default, getattr.
      destruct (dict_get "id" attrs) as [i |]; [| discriminate].
      injection Hshape as <- <- <-. unfold get.
      cbn [has_model_dump model_dump isinstance_dict orb].
      destruct (dict_get "idReadable" attrs); auto. }
  destruct Hids' as (-> & Hdict & Hkind). cbn [fst snd] in Ho.
  unfold linked_result.
  destruct (truthy readable_id || truthy issue_id) eqn:Hids.
  - set (u := base_url YOUTRACK_URL ++ "/issue/"
                ++ str (if truthy readable_id then readable_id else issue_id)).
    rewrite (generate_issue_url_some _ _ Hids) in Ho. fold u in Ho.
    assert (Hprep : IssueTools._prepare_issue_response issue (Some u) summary description
                      project
                    = VDict (dict_set "status" (VStr "success")
                               (dict_set "url" (VStr u) d))).
    { unfold IssueTools._prepare_issue_response.
      destruct (has_model_dump issue).
      - rewrite Hdict. unfold u. now rewrite truthy_issue_url.
      - cbn in Hkind. rewrite Hkind in *. rewrite Hdict. unfold u.
        now rewrite truthy_issue_url. }
    rewrite Hprep in Ho.
    destruct (PyFacts.json_dumps_set_str (Some 2) "url" u d s0 Hs0) as [s1 Hs1].
    destruct (PyFacts.json_dumps_set_str (Some 2) "status" "success" _ s1 Hs1) as [s Hs].
    exists s, (dict_set "status" (VStr "success") (dict_set "url" (VStr u) d)).
    repeat split.
    + congruence.
    + exact Hs.
    + apply PyFacts.dict_get_set_same.
    + rewrite PyFacts.dict_get_set_other by discriminate. apply PyFacts.dict_get_set_same.
    + intros k Hu Hst. now rewrite !PyFacts.dict_get_set_other.
  - rewrite (generate_issue_url_none _ _ Hids) in Ho. subst o. f_equal.
    unfold IssueTools._prepare_issue_response.
    destruct (has_model_dump issue).
    + now rewrite Hdict.
    + cbn in Hkind. rewrite Hkind in *. now rewrite Hdict.
Qed.

(** A falsy summary ends [create_issue] before any remote call. *)
Lemma create_issue_without_summary project summary description custom_fields h :
  project <> EmptyString ->
  truthy summary = false ->
  IssueTools.create_issue remote YOUTRACK_URL (VStr project) summary description
    custom_fields h
  = (Returned (error_status_text "Summary is required"), h).
Proof.
  intros Hproject Hsummary. apply wp_run_quiet.
  unfold IssueTools.create_issue, IssueTools.error_status_dict. cbv iota.
  rewrite (PyFacts.truthy_str project Hproject), Hsummary. cbn [negb].
  wp_run. split; reflexivity.
Qed.

(** C3. With a non-empty project and an empty summary ([None], the empty
    string or any other falsy value), [create_issue] returns exactly
    [{"error": "Summary is required", "status": "error"}] and the history
    of remote calls is unchanged: neither the project lookup nor the create
    call is made. *)
Theorem C3_summary_required :
  forall (project : string) (summary description custom_fields : value) (h : history),
    project <> EmptyString ->
    truthy summary = false ->
    IssueTools.create_issue remote YOUTRACK_URL (VStr project) summary description
      custom_fields h
    = (Returned (error_status_text "Summary is required"), h).
Proof.
  intros project summary description custom_fields h Hproject Hsummary.
  now apply create_issue_without_summary.
Qed.

(** C2. A project argument that is non-empty and does not start with
    [0-] is looked up by name first.  When the summary is empty nothing is
    called.  Otherwise [get_project_by_name] is the first remote call; when
    it yields no project the result is exactly
    [{"error": "Project not found: <project>", "status": "error"}] (the
    JSON encoding of that object, which is this very text when the name
    needs no escaping) and no other call is made; when it raises, an error object is returned and no
    other call is made; and when it yields a project, every later call is a
    create call made with that project's internal ID. *)
Theorem C2_short_name_resolved_before_create :
  forall (project : string) (summary description custom_fields : value) (h : history),
    project <> EmptyString ->
    startswith project "0-" = false ->
    let run := IssueTools.create_issue remote YOUTRACK_URL (VStr project) summary
                 description custom_fields h in
    let lookup := ProjectsGetProjectByName (VStr project) in
    if truthy summary then
      match remote h lookup with
      | Returned project_obj =>
          if truthy project_obj then
            exists r evs,
              run = (r, (h ++ (lookup, Returned project_obj) :: evs)%list)
              /\ forall c, In c (calls evs) ->
                   exists id additional_fields,
                     getattr project_obj "id" = Returned id
                     /\ c = IssuesCreateIssue id summary description additional_fields
          else
            run = (Returned (error_status_json ("Project not found: " ++ project)),
                   (h ++ [(lookup, Returned project_obj)])%list)
            /\ (plain project = true ->
                error_status_json ("Project not found: " ++ project)
                = error_status_text ("Project not found: " ++ project))
      | Raised e =>
          run = (Returned (error_status_json ("Error finding project: " ++ exn_str e)),
                 (h ++ [(lookup, Raised e)])%list)
      end
    else run = (Returned (error_status_text "Summary is required"), h).
Proof.
  intros project summary description custom_fields h Hproject Hprefix run lookup.
  subst run lookup.
  destruct (truthy summary) eqn:Hsummary; [| now apply create_issue_without_summary].
  unfold IssueTools.create_issue, IssueTools.error_status_dict. cbv iota.
  destruct (remote h (ProjectsGetProjectByName (VStr project))) as [project_obj | e] eqn:Hreply.
  - destruct (truthy project_obj) eqn:Hobj.
    + match goal with
      | |- exists r evs, ?m h = _ /\ _ =>
          assert (Hwp : wp m h (fun _ evs0 =>
            exists evs, evs0 = (ProjectsGetProjectByName (VStr project), Returned project_obj) :: evs
              /\ forall c, In c (calls evs) ->
                   exists id additional_fields,
                     getattr project_obj "id" = Returned id
                     /\ c = IssuesCreateIssue id summary description additional_fields))
      end.
      { rewrite (PyFacts.truthy_str project Hproject), Hsummary. cbn [negb].
        unfold startswith_method. rewrite Hprefix.
        wp_run.
        all: eexists; split; [reflexivity |]; cbn; intros c Hc.
        all: repeat match goal with
                    | H : _ \/ _ |- _ => destruct H
                    | H : False |- _ => destruct H
                    end; subst; eauto. }
      destruct Hwp as (r & evs0 & Hrun & evs & -> & Hcalls). now exists r, evs.
    + split.
      * apply wp_run.
        rewrite (PyFacts.truthy_str project Hproject), Hsummary. cbn [negb].
        unfold startswith_method. rewrite Hprefix.
        wp_run. now split.
      * intros Hplain. apply PyFacts.error_status_json_plain.
        now apply PyFacts.plain_app.
  - apply wp_run.
    rewrite (PyFacts.truthy_str project Hproject), Hsummary. cbn [negb].
    unfold startswith_method. rewrite Hprefix.
    wp_run. now split.
Qed.

Lemma created_issue_not_error issue d issue_id readable_id :
  created_issue issue = Some (d, issue_id, readable_id) ->
  match issue with VDict d => truthy (get d "error") | _ => false end = false.
Proof.
  destruct issue; try reflexivity. cbn. now destruct (truthy (get d0 "error")).
Qed.

Lemma create_issue_created project summary description custom_fields h :
  wp (IssueTools.create_issue remote YOUTRACK_URL project summary description custom_fields)
     h (created_post YOUTRACK_URL).
Proof.
  unfold IssueTools.create_issue, IssueTools.error_status_dict.
  wp_run.
  all: unfold created_post.
  all: intros evs c issue Hev Hc d issue_id readable_id Hshape Hser.
  all: try (exfalso; exact (app_cons_not_nil _ _ _ Hev)).
  all: apply snoc_last in Hev; cbn [last] in Hev; try discriminate Hev.
  all: injection Hev as <- <-; try discriminate Hc.
  all: pose proof (created_issue_not_error _ _ _ _ Hshape) as Hok; try congruence.
  all: match goal with
       | Hp : _ = (?v, ?v0), Ho : json_dumps (Some 2) _ = ?o |- _ =>
           pose proof (created_result _ _ _ _ _ _ _ (v, v0) o Hshape Hser Hp Ho) as Hres
       end.
  all: try exact Hres.
  all: exfalso; destruct Hser as [s0 Hs0]; unfold linked_result in Hres.
  all: destruct (truthy readable_id || truthy issue_id);
         [destruct Hres as (s' & d' & Hs' & _); discriminate Hs' | congruence].
Qed.

(** C4 (as amended). Whenever the create call of a run is answered with a
    Pydantic model that exposes [id], or with a plain mapping without a
    truthy [error], and the mapping form of the answer is JSON-serialisable:
    if it carries a truthy readable ID or internal ID, [create_issue]
    returns that mapping as JSON with [status] set to [success] and [url]
    set to [<base>/issue/<readable_id>] when the readable ID is truthy and
    to [<base>/issue/<id>] otherwise, every other field passed through;
    if it carries neither, the mapping is returned as it is, with no [url]
    and no [status] added.  [<base>] is the configured YouTrack URL, or the
    built-in default when none is configured. *)
Theorem C4_created_issue_url :
  forall (project summary description custom_fields : value) (h : history)
         (r : outcome string) (evs : list event) (c : call) (issue : value)
         (d : pydict) (issue_id readable_id : value),
    IssueTools.create_issue remote YOUTRACK_URL project summary description custom_fields h
    = (r, (h ++ evs ++ [(c, Returned issue)])%list) ->
    is_create_issue c = true ->
    created_issue issue = Some (d, issue_id, readable_id) ->
    (exists s0, json_dumps (Some 2) (VDict d) = Returned s0) ->
    if truthy readable_id || truthy issue_id then
      exists s d',
        r = Returned s
        /\ json_dumps (Some 2) (VDict d') = Returned s
        /\ dict_get "status" d' = Some (VStr "success")
        /\ dict_get "url" d'
           = Some (VStr (base_url YOUTRACK_URL ++ "/issue/"
                           ++ str (if truthy readable_id then readable_id else issue_id)))
        /\ (forall k, k <> "url" -> k <> "status" -> dict_get k d' = dict_get k d)
    else r = json_dumps (Some 2) (VDict d).
Proof.
  intros project summary description custom_fields h r evs c issue d issue_id readable_id
         Hrun Hc Hshape Hser.
  exact (wp_elim _ _ _ _ _ (create_issue_created _ _ _ _ h) Hrun
           evs c issue eq_refl Hc d issue_id readable_id Hshape Hser).
Qed.


End Issues.

(** ** Concrete runs *)

Import Examples.

Lemma C2_witness :
  IssueTools.create_issue (scripted [Returned VNone]) demo_url
    (VStr "DEMO") (VStr "Login fails") VNone VNone []
  = (Returned (error_status_text "Project not found: DEMO"),
     [(ProjectsGetProjectByName (VStr "DEMO"), Returned VNone)]).
Proof.
  exact (proj1 (C2_short_name_resolved_before_create (scripted [Returned VNone]) demo_url
                  "DEMO" (VStr "Login fails") VNone VNone []
                  ltac:(discriminate) eq_refl)).
Defined.

Lemma C3_witness :
  IssueTools.create_issue (scripted []) demo_url (VStr "DEMO") VNone VNone VNone []
  = (Returned (error_status_text "Summary is required"), [])
  /\ IssueTools.create_issue (scripted []) demo_url (VStr "DEMO") (VStr EmptyString)
       VNone VNone []
     = (Returned (error_status_text "Summary is required"), []).
Proof.
  split.
  - exact (C3_summary_required (scripted []) demo_url "DEMO" VNone VNone VNone []
             ltac:(discriminate) eq_refl).
  - exact (C3_summary_required (scripted []) demo_url "DEMO" (VStr EmptyString) VNone VNone []
             ltac:(discriminate) eq_refl).
Defined.

Lemma C4_witness :
  exists s d',
    fst create_demo = Returned s
    /\ json_dumps (Some 2) (VDict d') = Returned s
    /\ dict_get "status" d' = Some (VStr "success")
    /\ dict_get "url" d' = Some (VStr "https://youtrack.example.com/issue/DEMO-7")
    /\ (forall k, k <> "url" -> k <> "status" ->
          dict_get k d' = dict_get k [("id", VStr "2-5"); ("idReadable", VStr "DEMO-7")]).
Proof.
  exact (C4_created_issue_url
           (scripted [Returned demo_project; Returned demo_issue]) demo_url
           (VStr "DEMO") (VStr "Login fails") VNone VNone [] (fst create_demo)
           [(ProjectsGetProjectByName (VStr "DEMO"), Returned demo_project)]
           (IssuesCreateIssue (VStr "0-1") (VStr "Login fails") VNone (VDict []))
           demo_issue
           [("id", VStr "2-5"); ("idReadable", VStr "DEMO-7")] (VStr "2-5") (VStr "DEMO-7")
           eq_refl eq_refl eq_refl
           (ex_intro _ _ eq_refl)).
Defined.

(** C4 as stated fails: a create response that carries its own
    [status: success] and no identifier is returned as it is, with no [url];
    and with no base URL configured the link is built on the built-in
    default, not on the (empty) configured URL. *)
Lemma C4_counterexample :
  (fst (IssueTools.create_issue (scripted [Returned (VDict status_only)]) demo_url
          (VStr "0-1") (VStr "Login fails") VNone VNone [])
   = json_dumps (Some 2) (VDict status_only)
   /\ dict_get "status" status_only = Some (VStr "success")
   /\ dict_get "url" status_only = None)
  /\ fst (IssueTools.create_issue (scripted [Returned demo_issue]) EmptyString
            (VStr "0-1") (VStr "Login fails") VNone VNone [])
     = json_dumps (Some 2)
         (VDict [("id", VStr "2-5"); ("idReadable", VStr "DEMO-7");
                 ("url", VStr "https://youtrack.gaijin.team/issue/DEMO-7");
                 ("status", VStr "success")]).
Proof. repeat split. Qed.



End IssueFacts.

(* ===================================================================== *)
(** * Properties of the project facade *)
(* ===================================================================== *)

Module ProjectFacts.
Import Py Remote Surface RunFacts.



Section Projects.
Variable remote : oracle.


(** What [update_project] does with a fetched project that is a plain
    mapping: the attribute access of the log line raises, and the method
    reports that it could not update the project. *)
Lemma update_project_on_mapping project_id project name description archived lead_id
    short_name identifier h d :
  or_else project_id project = Some identifier ->
  identifier <> EmptyString ->
  remote h (ProjectsGetProject identifier) = Returned (VDict d) ->
  ProjectTools.update_project remote project_id project name description archived lead_id
    short_name h
  = (Returned (error_json ("Could not update project: "
                             ++ exn_str (no_attribute (VDict d) "name"))),
     (h ++ [(ProjectsGetProject identifier, Returned (VDict d))])%list).
Proof.
  intros Hid Hne Hreply. apply wp_run.
  unfold ProjectTools.update_project, ProjectTools.error_dict.
  rewrite Hid, (PyFacts.truthy_str identifier Hne). cbn [negb].
  wp_run. now split.
Qed.


(** C8. When the direct lookup of [get_project_issues] raises, the lookup
    by name is attempted exactly when the message of the exception starts
    with [Project not found]; for any other exception the method returns
    [{"error": <message>}] at once and makes no further call. *)
Theorem C8_fallback_only_on_not_found :
  forall (project_id project : option string) (limit : Z) (identifier : string)
         (h : history) (e : exn),
    or_else project_id project = Some identifier ->
    identifier <> EmptyString ->
    let direct := ProjectsGetProjectIssues (VStr identifier) limit in
    let lookup := ProjectsGetProjectByName (VStr identifier) in
    let run := ProjectTools.get_project_issues remote project_id project limit h in
    remote h direct = Raised e ->
    if startswith (exn_str e) "Project not found" then
      exists r evs,
        run = (r, (h ++ (direct, Raised e)
                     :: (lookup, remote (h ++ [(direct, Raised e)])%list lookup)
                     :: evs)%list)
    else
      run = (Returned (error_json (exn_str e)), (h ++ [(direct, Raised e)])%list).
Proof.
  intros project_id project limit identifier h e Hid Hne direct lookup run Hdirect.
  subst run lookup direct. unfold ProjectTools.get_project_issues, ProjectTools.error_dict.
  rewrite Hid, (PyFacts.truthy_str identifier Hne). cbn [negb].
  destruct (startswith (exn_str e) "Project not found") eqn:Hmsg.
  - match goal with
    | |- exists r evs, ?m h = _ =>
        assert (Hwp : wp m h (fun _ evs0 =>
          exists evs,
            evs0 = (ProjectsGetProjectIssues (VStr identifier) limit, Raised e)
                   :: (ProjectsGetProjectByName (VStr identifier),
                       remote (h ++ [(ProjectsGetProjectIssues (VStr identifier) limit,
                                      Raised e)])%list
                         (ProjectsGetProjectByName (VStr identifier)))
                   :: evs))
    end.
    { wp_run. all: eexists; reflexivity. }
    destruct Hwp as (r & evs0 & Hrun & evs & ->). now exists r, evs.
  - apply wp_run. wp_run. now split.
Qed.


(** C10. When the direct lookup succeeds with an empty (falsy) issue list,
    [get_project_issues] does not return it: the lookup by name follows.
    If that finds no project the result is
    [{"error": "Project not found: <identifier>"}]; if it finds one, the
    issues are fetched again with that project's ID and returned. *)
Theorem C10_empty_direct_result_falls_back :
  forall (project_id project : option string) (limit : Z) (identifier : string)
         (h : history) (issues : value),
    or_else project_id project = Some identifier ->
    identifier <> EmptyString ->
    let direct := ProjectsGetProjectIssues (VStr identifier) limit in
    let lookup := ProjectsGetProjectByName (VStr identifier) in
    let run := ProjectTools.get_project_issues remote project_id project limit h in
    remote h direct = Returned issues ->
    truthy issues = false ->
    match remote (h ++ [(direct, Returned issues)])%list lookup with
    | Returned project_obj =>
        if truthy project_obj then
          forall id,
            getattr project_obj "id" = Returned id ->
            let second := ProjectsGetProjectIssues id limit in
            match remote (h ++ [(direct, Returned issues); (lookup, Returned project_obj)])%list
                    second with
            | Returned found =>
                forall s,
                  json_dumps (Some 2) found = Returned s ->
                  run = (Returned s,
                         (h ++ [(direct, Returned issues); (lookup, Returned project_obj);
                                (second, Returned found)])%list)
            | Raised e =>
                run = (Returned (error_json (exn_str e)),
                       (h ++ [(direct, Returned issues); (lookup, Returned project_obj);
                              (second, Raised e)])%list)
            end
        else
          run = (Returned (error_json ("Project not found: " ++ identifier)),
                 (h ++ [(direct, Returned issues); (lookup, Returned project_obj)])%list)
    | Raised e =>
        run = (Returned (error_json (exn_str e)),
               (h ++ [(direct, Returned issues); (lookup, Raised e)])%list)
    end.
Proof.
  intros project_id project limit identifier h issues Hid Hne direct lookup run
         Hdirect Hempty.
  subst run lookup direct. unfold ProjectTools.get_project_issues, ProjectTools.error_dict.
  rewrite Hid, (PyFacts.truthy_str identifier Hne). cbn [negb].
  match goal with
  | |- match ?byname with _ => _ end => destruct byname as [project_obj | e] eqn:Hlookup
  end.
  - destruct (truthy project_obj) eqn:Hobj.
    + intros id Hident. cbv zeta.
      match goal with
      | |- match ?again with _ => _ end => destruct again as [found | e] eqn:Hsecond
      end.
      * intros s Hs. apply wp_run. wp_run. now split.
      * apply wp_run. wp_run. now split.
    + apply wp_run. wp_run. now split.
  - apply wp_run. wp_run. now split.
Qed.

End Projects.

(** ** Concrete runs *)

Import Examples.



Lemma C8_witness :
  (exists r evs,
     ProjectTools.get_project_issues (scripted [Raised not_found; Returned VNone])
       (Some "DEMO") None 50 []
     = (r, (ProjectsGetProjectIssues (VStr "DEMO") 50, Raised not_found)
           :: (ProjectsGetProjectByName (VStr "DEMO"), Returned VNone) :: evs))
  /\ ProjectTools.get_project_issues (scripted [Raised server_error; Returned VNone])
       (Some "DEMO") None 50 []
     = (Returned (error_text "500 Internal Server Error"),
        [(ProjectsGetProjectIssues (VStr "DEMO") 50, Raised server_error)]).
Proof.
  split.
  - exact (C8_fallback_only_on_not_found (scripted [Raised not_found; Returned VNone])
             (Some "DEMO") None 50 "DEMO" [] not_found
             eq_refl ltac:(discriminate) eq_refl).
  - exact (C8_fallback_only_on_not_found (scripted [Raised server_error; Returned VNone])
             (Some "DEMO") None 50 "DEMO" [] server_error
             eq_refl ltac:(discriminate) eq_refl).
Defined.


Lemma C10_witness :
  exists s,
    json_dumps (Some 2) (VList [VDict minimal_issue]) = Returned s
    /\ ProjectTools.get_project_issues
         (scripted [Returned (VList []); Returned demo_project;
                    Returned (VList [VDict minimal_issue])])
         (Some "DEMO") None 50 []
       = (Returned s,
          [(ProjectsGetProjectIssues (VStr "DEMO") 50, Returned (VList []));
           (ProjectsGetProjectByName (VStr "DEMO"), Returned demo_project);
           (ProjectsGetProjectIssues (VStr "0-1") 50,
            Returned (VList [VDict minimal_issue]))]).
Proof.
  eexists. split; [reflexivity |].
  exact (C10_empty_direct_result_falls_back
           (scripted [Returned (VList []); Returned demo_project;
                      Returned (VList [VDict minimal_issue])])
           (Some "DEMO") None 50 "DEMO" [] (VList [])
           eq_refl ltac:(discriminate) eq_refl eq_refl (VStr "0-1") eq_refl _ eq_refl).
Defined.

End ProjectFacts.
